(** * scripts/google_cloud_platform_setting_example.py

    A shallow embedding of the configuration provider ([Config]) and of the
    tool-schema request builder ([function_calling_example],
    [gemini_function_calling_example]), with the properties the
    specification states about them.

    Python strings are kept as their UTF-8 bytes; the only string operations
    used are concatenation and equality, which agree on both views. *)

From Stdlib Require Import Ascii String List ZArith Bool Lia PrimFloat.
Import ListNotations.
Local Open Scope string_scope.
Set Warnings "-register-all".
Set Warnings "-inexact-float".

(** ** Python values

    The literals of the script are built from [dict], [list], [str], [int],
    [bool]; [json.load] can also yield [None] and [float].  A [dict] keeps
    insertion order, so it is an association list. *)

Inductive pyval : Type :=
| PyNone
| PyBool (b : bool)
| PyInt (z : Z)
| PyFloat (f : float)
| PyStr (s : string)
| PyList (l : list pyval)
| PyDict (d : list (string * pyval)).

(** [d[k]] on an association list: the first binding of [k]. *)
Fixpoint assoc {A : Type} (k : string) (d : list (string * A)) : option A :=
  match d with
  | [] => None
  | (k', v) :: d' => if String.eqb k k' then Some v else assoc k d'
  end.

Definition keys {A : Type} (d : list (string * A)) : list string := map fst d.

(** [v.get(k)]: [None] when [v] is not a dict or has no key [k]. *)
Definition py_get (k : string) (v : pyval) : option pyval :=
  match v with
  | PyDict d => assoc k d
  | _ => None
  end.

(** [v[k1][k2]...] *)
Fixpoint py_path (ks : list string) (v : pyval) : option pyval :=
  match ks with
  | [] => Some v
  | k :: ks' =>
      match py_get k v with
      | Some v' => py_path ks' v'
      | None => None
      end
  end.

Definition py_keys (v : pyval) : list string :=
  match v with
  | PyDict d => keys d
  | _ => []
  end.

(** ** The taxonomies *)

Definition INTENT : list (string * string) :=
  [ ("A", "訂單相關");
    ("B", "產品與服務相關") ].

Definition SUBINTENT : list (string * string) :=
  [ ("A1", "查詢訂單狀態/進度");
    ("A2", "修改訂單內容");
    ("A3", "取消訂單");
    ("A4", "查詢發票/收據");
    ("B1", "詢問產品資訊");
    ("B2", "詢問庫存狀況");
    ("B3", "詢問價格與優惠");
    ("B4", "比較產品") ].

(** ** The tool schema: the literal bound to [update_session_decl] *)

Definition update_session_decl : pyval :=
  PyDict [
    ("name", PyStr "update_session");
    ("description", PyStr "依據電商對話，更新整體摘要、分數與建議回覆。這是主要的工具");
    ("parameters", PyDict [
      ("type", PyStr "object");
      ("properties", PyDict [
        ("session_end", PyDict [
          ("type", PyStr "boolean");
          ("description", PyStr "是否結束對話，如果為 True，則會將對話結束，並回傳整體摘要、分數與建議回覆。")
        ]);
        ("session_summary_user", PyDict [
          ("type", PyStr "string");
          ("description", PyStr "從過往對話紀錄摘要對話內容。")
        ]);
        ("consumer_sentiment_score", PyDict [("type", PyStr "integer")]);
        ("consumer_urgency_score", PyDict [("type", PyStr "integer")]);
        ("consumer_purchase_potential_score", PyDict [("type", PyStr "integer")]);
        ("potential_interest_products", PyDict [
          ("type", PyStr "array");
          ("items", PyDict [("type", PyStr "string")])
        ]);
        ("intent", PyDict [
          ("type", PyStr "string");
          ("description", PyStr "將使用者最新的對話分類到以下其中一個主要意圖：A. 訂單相關, B. 產品與服務相關");
          ("enum", PyList [
            PyStr "A. 訂單相關";
            PyStr "B. 產品與服務相關"
          ])
        ]);
        ("subintent", PyDict [
          ("type", PyStr "array");
          ("items", PyDict [("type", PyStr "string")]);
          ("maxItems", PyInt 3);
          ("description", PyStr "根據主要意圖，列出相關的子意圖（最多3個）。");
          ("enum", PyList [
            PyStr "A1. 查詢訂單狀態/進度";
            PyStr "A2. 修改訂單內容";
            PyStr "A3. 取消訂單";
            PyStr "A4. 查詢發票/收據";
            PyStr "B1. 詢問產品資訊";
            PyStr "B2. 詢問庫存狀況";
            PyStr "B3. 詢問價格與優惠";
            PyStr "B4. 比較產品"
          ])
        ]);
        ("suggested_responses", PyDict [
          ("type", PyStr "array");
          ("items", PyDict [("type", PyStr "string")]);
          ("description", PyStr "建議回覆，可以是多個字串，最多3個。");
          ("minItems", PyInt 1);
          ("maxItems", PyInt 3)
        ]);
        ("customer_conversation_tags", PyDict [
          ("type", PyStr "array");
          ("items", PyDict [("type", PyStr "string")]);
          ("description", PyStr "基於過往對話標籤和新訊息更新客戶對話標籤。如果沒有合適的既有標籤，請根據對話內容產生新的標籤。保留有意義的舊標籤。")
        ])
      ]);
      ("required", PyList [
        PyStr "session_end";
        PyStr "session_summary_user";
        PyStr "consumer_sentiment_score";
        PyStr "consumer_urgency_score";
        PyStr "consumer_purchase_potential_score";
        PyStr "potential_interest_products";
        PyStr "intent";
        PyStr "subintent";
        PyStr "suggested_responses";
        PyStr "customer_conversation_tags"
      ])
    ])
  ].

(** ** Errors

    Modelled from the spec: the script defines no exception class and has no
    [raise]; every failure comes out of a library call ([open], [json.load],
    [Credentials.from_authorized_user_info], the two client constructors,
    [generate_content]).  The specification sorts those failures into five
    kinds, which are taken here as the exceptions. *)

Inductive error : Type :=
| FileAccessError
| ParseError
| AuthenticationError
| RequestError
| RemoteServiceError.

Inductive result (A : Type) : Type :=
| Ok (a : A)
| Err (e : error).
Arguments Ok {A} a.
Arguments Err {A} e.

(** ** Objects of the libraries

    Every object carries the identity it was allocated with, so that equality
    of two objects is Python's [is]. *)

Record Credentials : Type := mkCredentials {
  cred_id : nat;
  cred_info : list (string * pyval)
}.

Record BigqueryClient : Type := mkBigqueryClient {
  bq_id : nat;
  bq_project : string;
  bq_credentials : Credentials
}.

(** [genai.Client] takes [credentials] and [api_key] as keywords that default
    to [None]. *)
Record GenaiClient : Type := mkGenaiClient {
  genai_id : nat;
  genai_vertexai : bool;
  genai_project : string;
  genai_location : string;
  genai_credentials : option Credentials;
  genai_api_key : option string
}.

Record Tool : Type := mkTool {
  function_declarations : list pyval
}.

Record GenerateContentConfig : Type := mkGenerateContentConfig {
  tools : list Tool;
  temperature : float
}.

(** The keyword arguments of one [client.models.generate_content] call. *)
Record Request : Type := mkRequest {
  model : string;
  contents : string;
  config : GenerateContentConfig
}.

(** ** The world

    What the script can observe or change outside its own locals: the
    filesystem, the allocator of object identities, the three [lru_cache]
    slots of [Config], and the calls made to the outside so far (newest
    first). *)

Inductive file : Type :=
| Missing
| Unreadable
| Readable (content : string).

Inductive event : Type :=
| EvOpen (path mode : string)
| EvBigqueryClient (project : string) (credentials : Credentials)
| EvGenaiClient (vertexai : bool) (project location : string)
    (credentials : option Credentials) (api_key : option string)
| EvGenerateContent (client : GenaiClient) (req : Request).

Record World : Type := mkWorld {
  fs : string -> file;
  next_id : nat;
  trace : list event;
  credentials_cache : option Credentials;
  bigquery_cache : option BigqueryClient;
  genai_cache : option GenaiClient
}.

Definition log (ev : event) (w : World) : World :=
  mkWorld (fs w) (next_id w) (ev :: trace w)
    (credentials_cache w) (bigquery_cache w) (genai_cache w).

Definition bump (w : World) : World :=
  mkWorld (fs w) (S (next_id w)) (trace w)
    (credentials_cache w) (bigquery_cache w) (genai_cache w).

Definition set_credentials_cache (c : Credentials) (w : World) : World :=
  mkWorld (fs w) (next_id w) (trace w) (Some c) (bigquery_cache w) (genai_cache w).

Definition set_bigquery_cache (b : BigqueryClient) (w : World) : World :=
  mkWorld (fs w) (next_id w) (trace w) (credentials_cache w) (Some b) (genai_cache w).

Definition set_genai_cache (g : GenaiClient) (w : World) : World :=
  mkWorld (fs w) (next_id w) (trace w) (credentials_cache w) (bigquery_cache w) (Some g).

(** Something outside the process creates, replaces or removes a file. *)
Definition set_file (path : string) (f : file) (w : World) : World :=
  mkWorld (fun p => if String.eqb p path then f else fs w p) (next_id w) (trace w)
    (credentials_cache w) (bigquery_cache w) (genai_cache w).

Definition is_open (ev : event) : bool :=
  match ev with EvOpen _ _ => true | _ => false end.

Definition is_generate_content (ev : event) : bool :=
  match ev with EvGenerateContent _ _ => true | _ => false end.

(** Number of times the filesystem was touched, and of requests sent. *)
Definition opens (t : list event) : nat := length (filter is_open t).
Definition requests (t : list event) : nat := length (filter is_generate_content t).

(** ** Computations: state that survives an exception *)

Definition M (A : Type) : Type := World -> result A * World.

Definition ret {A : Type} (a : A) : M A := fun w => (Ok a, w).

Definition bind {A B : Type} (c : M A) (k : A -> M B) : M B :=
  fun w =>
    match c w with
    | (Ok a, w') => k a w'
    | (Err e, w') => (Err e, w')
    end.

Notation "x <- c ;; k" := (bind c (fun x => k))
  (at level 61, c at next level, right associativity).

(** [functools.lru_cache(maxsize=1)] under [classmethod]: the key is the
    class, and [Config] is the only class of the script, so the cache is one
    slot.  A call that raises stores nothing. *)
Definition lru_cache {A : Type} (slot : World -> option A)
    (store : A -> World -> World) (f : M A) : M A :=
  fun w =>
    match slot w with
    | Some v => (Ok v, w)
    | None =>
        match f w with
        | (Ok v, w') => (Ok v, store v w')
        | (Err e, w') => (Err e, w')
        end
    end.

(** ** The platform

    The behaviour of what the script imports but does not define.  [home] is
    the user's home directory when the module is loaded; [json_loads] is the
    JSON parser ([None]: not valid JSON); [builds_credentials] says whether
    the credentials library, having found the fields it requires, makes
    credentials of the parsed object (it raises, for one, on an [expiry] that
    is not a timestamp); the other three say how a constructor or the hosted
    service answers, given the calls made so far. *)

Record Platform (Response : Type) : Type := mkPlatform {
  home : string;
  json_loads : string -> option pyval;
  builds_credentials : list (string * pyval) -> bool;
  bigquery_Client_raises : list event -> string -> Credentials -> option error;
  genai_Client_raises : list event -> bool -> string -> string -> option error;
  models_generate_content : list event -> GenaiClient -> Request -> result Response
}.
Arguments home {Response} _.
Arguments json_loads {Response} _ _.
Arguments builds_credentials {Response} _ _.
Arguments bigquery_Client_raises {Response} _ _ _ _.
Arguments genai_Client_raises {Response} _ _ _ _ _.
Arguments models_generate_content {Response} _ _ _ _.

(** [s.rstrip("/")] *)
Fixpoint rstrip_slash (s : string) : string :=
  match s with
  | EmptyString => EmptyString
  | String c s' =>
      match rstrip_slash s' with
      | EmptyString => if Ascii.eqb c "/" then EmptyString else String c EmptyString
      | r => String c r
      end
  end.

(** [os.path.expanduser] for the forms [~] and [~/...]: the home directory
    without its trailing slashes, then the rest of the path, and [/] should
    that be empty; any other path comes back as it is. *)
Definition expanduser (home_dir path : string) : string :=
  match path with
  | String "~"%char EmptyString =>
      match rstrip_slash home_dir with
      | EmptyString => "/"
      | h => h
      end
  | String "~"%char (String "/"%char _ as rest) => rstrip_slash home_dir ++ rest
  | _ => path
  end.

(** Modelled from the spec: the fields [Credentials.from_authorized_user_info]
    requires, named by the specification as client id, client secret and
    refresh token. *)
Definition authorization_fields : list string :=
  ["client_id"; "client_secret"; "refresh_token"].

Definition has_authorization_fields (info : pyval) : bool :=
  match info with
  | PyDict d =>
      forallb (fun k => match assoc k d with Some _ => true | None => false end)
        authorization_fields
  | _ => false
  end.

Section Script.

Context {Response : Type}.
Variable P : Platform Response.

(** [open(path, mode)] followed by reading the file through the handle: the
    handle is the content. *)
Definition open_ (path mode : string) : M string :=
  fun w =>
    match fs w path with
    | Readable s => (Ok s, log (EvOpen path mode) w)
    | Missing | Unreadable => (Err FileAccessError, log (EvOpen path mode) w)
    end.

Definition json_load (f : string) : M pyval :=
  fun w =>
    match json_loads P f with
    | Some v => (Ok v, w)
    | None => (Err ParseError, w)
    end.

(** Modelled from the spec: [Credentials.from_authorized_user_info] builds a
    new credentials object from the parsed fields and fails with a ParseError
    when required authorization fields are missing.  With the fields there,
    the library still reads the other ones and may raise on them, a
    ValueError, which is a ParseError here. *)
Definition from_authorized_user_info (info : pyval) : M Credentials :=
  fun w =>
    match info with
    | PyDict d =>
        if has_authorization_fields info
        then if builds_credentials P d
             then (Ok (mkCredentials (next_id w) d), bump w)
             else (Err ParseError, w)
        else (Err ParseError, w)
    | _ => (Err ParseError, w)
    end.

Definition bigquery_Client (project : string) (credentials : Credentials)
  : M BigqueryClient :=
  fun w =>
    let w' := log (EvBigqueryClient project credentials) w in
    match bigquery_Client_raises P (trace w) project credentials with
    | Some e => (Err e, w')
    | None => (Ok (mkBigqueryClient (next_id w) project credentials), bump w')
    end.

Definition genai_Client (vertexai : bool) (project location : string)
  : M GenaiClient :=
  fun w =>
    let w' := log (EvGenaiClient vertexai project location None None) w in
    match genai_Client_raises P (trace w) vertexai project location with
    | Some e => (Err e, w')
    | None =>
        (Ok (mkGenaiClient (next_id w) vertexai project location None None), bump w')
    end.

Definition generate_content (client : GenaiClient) (model : string)
    (contents : string) (config : GenerateContentConfig) : M Response :=
  fun w =>
    let req := mkRequest model contents config in
    (models_generate_content P (trace w) client req,
     log (EvGenerateContent client req) w).

(** *** class Config *)

Definition ADC_PATH : string :=
  expanduser (home P) "~/.config/gcloud/application_default_credentials.json".
Definition PROJECT_ID : string := "commanding-iris-806".
Definition DATASET_ID : string := "sony_test".
Definition GENAI_LOCATION : string := "us-central1".

Definition load_credentials : M Credentials :=
  lru_cache credentials_cache set_credentials_cache
    (f <- open_ ADC_PATH "r" ;;
     info <- json_load f ;;
     from_authorized_user_info info).

Definition bigquery_client : M BigqueryClient :=
  lru_cache bigquery_cache set_bigquery_cache
    (creds <- load_credentials ;;
     bigquery_Client PROJECT_ID creds).

Definition genai_client : M GenaiClient :=
  lru_cache genai_cache set_genai_cache
    (genai_Client true PROJECT_ID GENAI_LOCATION).

(** *** The request builder *)

Definition function_calling_example : M pyval :=
  ret update_session_decl.

Definition gemini_function_calling_example : M Response :=
  function_calling_1 <- function_calling_example ;;
  let function_calling_2 := PyDict [] in
  let prompt := "" in
  let tools_list :=
    [ mkTool [function_calling_1];
      mkTool [function_calling_2] ] in
  let config := mkGenerateContentConfig tools_list 0.3%float in
  client <- genai_client ;;
  resp <- generate_content client "gemini-2.0-flash-lite" prompt config ;;
  ret resp.

(** The specification's [generate_with_tools(prompt)], written from its
    words: the same request, for a prompt given by the caller. *)
Definition spec_generate_with_tools (prompt : string) : M Response :=
  tool <- function_calling_example ;;
  let config :=
    mkGenerateContentConfig [mkTool [tool]; mkTool [PyDict []]] 0.3%float in
  client <- genai_client ;;
  generate_content client "gemini-2.0-flash-lite" prompt config.

(** *** Sequences of calls in one process *)

Inductive call : Type :=
| CallLoadCredentials
| CallBigqueryClient
| CallGenaiClient
| CallFunctionCallingExample
| CallGeminiFunctionCallingExample
| EnvSetFile (path : string) (f : file).

Inductive value : Type :=
| VCredentials (c : Credentials)
| VBigqueryClient (b : BigqueryClient)
| VGenaiClient (g : GenaiClient)
| VSchema (s : pyval)
| VResponse (r : Response)
| VNone.

Definition run_call (c : call) : M value :=
  match c with
  | CallLoadCredentials => x <- load_credentials ;; ret (VCredentials x)
  | CallBigqueryClient => x <- bigquery_client ;; ret (VBigqueryClient x)
  | CallGenaiClient => x <- genai_client ;; ret (VGenaiClient x)
  | CallFunctionCallingExample => x <- function_calling_example ;; ret (VSchema x)
  | CallGeminiFunctionCallingExample =>
      x <- gemini_function_calling_example ;; ret (VResponse x)
  | EnvSetFile path f => fun w => (Ok VNone, set_file path f w)
  end.

(** The harness making the calls handles a failure and goes on with the next
    call; the state a failed call leaves behind is kept. *)
Fixpoint run_calls (cs : list call) (w : World) : list (result value) * World :=
  match cs with
  | [] => ([], w)
  | c :: cs' =>
      let (r, w') := run_call c w in
      let (rs, w'') := run_calls cs' w' in
      (r :: rs, w'')
  end.

End Script.

(** ** Reading the schema *)

(** The enum strings a taxonomy stands for: code, dot, space, label. *)
Definition enum_of_taxonomy (t : list (string * string)) : list pyval :=
  map (fun kv => PyStr (fst kv ++ ". " ++ snd kv)) t.

(** What [minItems] and [maxItems] of an array schema say about an array of
    [n] items; a keyword that is absent constrains nothing. *)
Definition item_count_allowed (schema : pyval) (n : nat) : bool :=
  match py_get "minItems" schema with
  | Some (PyInt lo) => (lo <=? Z.of_nat n)%Z
  | _ => true
  end
  &&
  match py_get "maxItems" schema with
  | Some (PyInt hi) => (Z.of_nat n <=? hi)%Z
  | _ => true
  end.

Definition required_fields : list string :=
  [ "session_end";
    "session_summary_user";
    "consumer_sentiment_score";
    "consumer_urgency_score";
    "consumer_purchase_potential_score";
    "potential_interest_products";
    "intent";
    "subintent";
    "suggested_responses";
    "customer_conversation_tags" ].

(** ** A process start, and a mock platform

    The mock parses three file contents, lets both constructors succeed and
    answers a request by echoing it. *)

Definition process_start (w : World) : Prop :=
  credentials_cache w = None /\ bigquery_cache w = None /\ genai_cache w = None.

Definition mock_fields : list (string * pyval) :=
  [ ("client_id", PyStr "id");
    ("client_secret", PyStr "secret");
    ("refresh_token", PyStr "token");
    ("type", PyStr "authorized_user") ].

Definition mock_info : pyval := PyDict mock_fields.

Definition mock_json_loads (s : string) : option pyval :=
  if String.eqb s "authorized user" then Some mock_info
  else if String.eqb s "empty object" then Some (PyDict [])
  else if String.eqb s "bad expiry"
       then Some (PyDict (mock_fields ++ [("expiry", PyStr "not a timestamp")]))
  else None.

(** The mock library accepts every object but one whose [expiry] is the text
    "not a timestamp". *)
Definition mock_builds_credentials (d : list (string * pyval)) : bool :=
  match assoc "expiry" d with
  | Some (PyStr e) => negb (String.eqb e "not a timestamp")
  | _ => true
  end.

Definition mock : Platform Request :=
  mkPlatform Request "/home/user" mock_json_loads mock_builds_credentials
    (fun _ _ _ => None)
    (fun _ _ _ _ => None)
    (fun _ _ req => Ok req).

(** A fresh process on a machine whose only file of interest is [f]. *)
Definition fresh (f : file) : World :=
  mkWorld
    (fun p =>
       if String.eqb p "/home/user/.config/gcloud/application_default_credentials.json"
       then f else Missing)
    0 [] None None None.

(** [keeps w w']: whatever is cached in [w] is still cached, the same
    object, in [w']; and once credentials are cached the filesystem is left
    alone. *)
Definition keeps (w w' : World) : Prop :=
  (forall c, credentials_cache w = Some c ->
             credentials_cache w' = Some c /\ opens (trace w') = opens (trace w)) /\
  (forall b, bigquery_cache w = Some b -> bigquery_cache w' = Some b) /\
  (forall g, genai_cache w = Some g -> genai_cache w' = Some g).

(** How the cached clients were built. *)
Definition clients_as_built (w : World) : Prop :=
  (forall b, bigquery_cache w = Some b ->
     bq_project b = PROJECT_ID /\
     credentials_cache w = Some (bq_credentials b)) /\
  (forall g, genai_cache w = Some g ->
     genai_vertexai g = true /\
     genai_project g = PROJECT_ID /\
     genai_location g = GENAI_LOCATION /\
     genai_credentials g = None /\
     genai_api_key g = None).

(** The one request [gemini_function_calling_example] sends. *)
Definition the_request : Request :=
  mkRequest "gemini-2.0-flash-lite" ""
    (mkGenerateContentConfig
       [mkTool [update_session_decl]; mkTool [PyDict []]] 0.3%float).

(** ** How a client authenticates

    Modelled from the spec: a client given a credentials object uses it; a
    GenAI client given neither credentials nor an API key authenticates via
    the platform's ambient identity. *)

Inductive auth_source : Type :=
| Explicit (c : Credentials)
| ApiKey (k : string)
| Ambient.

Definition bigquery_auth (b : BigqueryClient) : auth_source :=
  Explicit (bq_credentials b).

Definition genai_auth (g : GenaiClient) : auth_source :=
  match genai_credentials g with
  | Some c => Explicit c
  | None =>
      match genai_api_key g with
      | Some k => ApiKey k
      | None => Ambient
      end
  end.

(** ** Validating a value against a schema

    Modelled from the spec: the script validates nothing; this is the schema
    validation the specification has in mind, for the JSON-Schema keywords
    the declaration uses.  Every keyword present constrains the value on its
    own: [type]; [enum] (the value is one of those listed); [minItems],
    [maxItems] and [items] for an array; [required] and [properties] for an
    object. *)







(** The first objects the mock platform hands out. *)
Definition mock_credentials : Credentials := mkCredentials 0 mock_fields.
Definition mock_genai_client : GenaiClient :=
  mkGenaiClient 0 true PROJECT_ID GENAI_LOCATION None None.
Definition mock_bigquery_client : BigqueryClient :=
  mkBigqueryClient 1 PROJECT_ID mock_credentials.

(** ** Measuring a run *)

(** How many of the three cache slots hold an object. *)
Definition filled (w : World) : nat :=
  (match credentials_cache w with Some _ => 1 | None => 0 end) +
  (match bigquery_cache w with Some _ => 1 | None => 0 end) +
  (match genai_cache w with Some _ => 1 | None => 0 end).

(** The four calls to the outside the script contains, as they look in a
    trace whose final state is [w]: [open(cls.ADC_PATH, "r")],
    [bigquery.Client(project=cls.PROJECT_ID, credentials=creds)],
    [genai.Client(vertexai=True, project=..., location=...)] and the one
    [generate_content] request. *)
Definition event_ok {Response : Type} (P : Platform Response) (w : World)
    (ev : event) : Prop :=
  match ev with
  | EvOpen path mode => path = ADC_PATH P /\ mode = "r"
  | EvBigqueryClient project c =>
      project = PROJECT_ID /\ credentials_cache w = Some c
  | EvGenaiClient vertexai project location c k =>
      vertexai = true /\ project = PROJECT_ID /\ location = GENAI_LOCATION /\
      c = None /\ k = None
  | EvGenerateContent g req => req = the_request /\ genai_cache w = Some g
  end.

(** The calls whose code path contains [open], and [generate_content]. *)
Definition may_open (c : call) : bool :=
  match c with
  | CallLoadCredentials | CallBigqueryClient => true
  | _ => false
  end.

Definition may_request (c : call) : bool :=
  match c with
  | CallGeminiFunctionCallingExample => true
  | _ => false
  end.

Definition count_calls (f : call -> bool) (cs : list call) : nat :=
  length (filter f cs).

(** A property schema names one of the four JSON types the literal uses, and
    an array is an array of strings. *)
Definition field_well_typed (schema : pyval) : bool :=
  match py_get "type" schema with
  | Some (PyStr ty) =>
      if String.eqb ty "array"
      then match py_path ["items"; "type"] schema with
           | Some (PyStr item) => String.eqb item "string"
           | _ => false
           end
      else existsb (String.eqb ty) ["boolean"; "string"; "integer"]
  | _ => false
  end.

(** The mock platform with a BigQuery constructor that rejects every
    credentials object. *)
Definition mock_bigquery_down : Platform Request :=
  mkPlatform Request "/home/user" mock_json_loads mock_builds_credentials
    (fun _ _ _ => Some AuthenticationError)
    (fun _ _ _ _ => None)
    (fun _ _ req => Ok req).

(** * Properties *)

(** ** The schema *)

Example ADC_PATH_mock :
  ADC_PATH mock = "/home/user/.config/gcloud/application_default_credentials.json".
Proof. reflexivity. Qed.

(** C2: the schema [function_calling_example] returns, in any state, names the
    tool "update_session", and the [required] list of its parameters is the
    ten field names, in this order, each once. *)
Theorem update_session_name_and_required :
  forall w : World,
    exists s,
      function_calling_example w = (Ok s, w) /\
      py_get "name" s = Some (PyStr "update_session") /\
      py_path ["parameters"; "required"] s = Some (PyList (map PyStr required_fields)) /\
      length required_fields = 10 /\
      NoDup required_fields.
Proof.
  intro w. exists update_session_decl.
  repeat split; try reflexivity.
  unfold required_fields.
  repeat (constructor; [simpl; intros H; repeat destruct H as [H | H]; try discriminate H; exact H |]).
  constructor.
Qed.

(** C3: in the returned schema, [subintent] has maxItems 3 and
    [suggested_responses] has minItems 1 and maxItems 3; so four subintents
    are too many, and the suggested replies number one to three. *)
Theorem subintent_and_suggested_responses_bounds :
  forall w : World,
    exists s sub sug,
      function_calling_example w = (Ok s, w) /\
      py_path ["parameters"; "properties"; "subintent"] s = Some sub /\
      py_path ["parameters"; "properties"; "suggested_responses"] s = Some sug /\
      py_get "maxItems" sub = Some (PyInt 3) /\
      py_get "minItems" sug = Some (PyInt 1) /\
      py_get "maxItems" sug = Some (PyInt 3) /\
      (forall n, item_count_allowed sub n = true -> n <= 3) /\
      (forall n, item_count_allowed sug n = true <-> 1 <= n <= 3).
Proof.
  intro w.
  eexists; eexists; eexists.
  split; [reflexivity |].
  split; [reflexivity |].
  split; [reflexivity |].
  split; [reflexivity |].
  split; [reflexivity |].
  split; [reflexivity |].
  unfold item_count_allowed; simpl.
  split; intro n.
  - intro H. apply Z.leb_le in H. lia.
  - rewrite andb_true_iff, !Z.leb_le. lia.
Qed.

(** C9: in the schema [function_calling_example] returns, the enum of
    [intent] is, entry by entry, "k. INTENT[k]" for the keys of INTENT, and
    the enum of [subintent] is "k. SUBINTENT[k]" for the keys of SUBINTENT;
    the keys are distinct, two and eight in number. *)
Theorem enums_follow_taxonomies :
  forall w : World,
    exists s,
      function_calling_example w = (Ok s, w) /\
      py_path ["parameters"; "properties"; "intent"; "enum"] s
        = Some (PyList (enum_of_taxonomy INTENT)) /\
      py_path ["parameters"; "properties"; "subintent"; "enum"] s
        = Some (PyList (enum_of_taxonomy SUBINTENT)) /\
      (forall k, In k (keys INTENT) ->
         exists label, assoc k INTENT = Some label /\
                       In (PyStr (k ++ ". " ++ label)) (enum_of_taxonomy INTENT)) /\
      (forall k, In k (keys SUBINTENT) ->
         exists label, assoc k SUBINTENT = Some label /\
                       In (PyStr (k ++ ". " ++ label)) (enum_of_taxonomy SUBINTENT)) /\
      length (enum_of_taxonomy INTENT) = 2 /\
      length (enum_of_taxonomy SUBINTENT) = 8 /\
      NoDup (keys INTENT) /\ NoDup (keys SUBINTENT).
Proof.
  intro w. exists update_session_decl.
  split; [reflexivity |].
  split; [reflexivity |].
  split; [reflexivity |].
  split.
  { intros k H. simpl in H.
    repeat destruct H as [H | H]; try contradiction; subst k;
      eexists; (split; [reflexivity |]); simpl; tauto. }
  split.
  { intros k H. simpl in H.
    repeat destruct H as [H | H]; try contradiction; subst k;
      eexists; (split; [reflexivity |]); simpl; tauto. }
  split; [reflexivity |].
  split; [reflexivity |].
  split; simpl;
    repeat (constructor; [simpl; intros H; repeat destruct H as [H | H]; try discriminate H; exact H |]);
    constructor.
Qed.


(** C8: [function_calling_example] never fails, leaves the world as it found
    it (no call to the outside, no cache written), and returns the same
    schema whatever the state it is called in. *)
Theorem function_calling_example_pure :
  forall w1 w2 : World,
    exists s,
      function_calling_example w1 = (Ok s, w1) /\
      function_calling_example w2 = (Ok s, w2).
Proof.
  intros w1 w2. exists update_session_decl. split; reflexivity.
Qed.

(** ** The configuration provider *)

Arguments has_authorization_fields : simpl never.

Section Provider.

Context {Response : Type}.
Variable P : Platform Response.

Ltac split_hyp H :=
  repeat match type of H with
         | context [match ?x with _ => _ end] => destruct x eqn:?
         end;
  inversion H; subst; clear H; simpl in *.

Lemma load_credentials_hit (w : World) (c : Credentials) :
  credentials_cache w = Some c -> load_credentials P w = (Ok c, w).
Proof. intro H. unfold load_credentials, lru_cache. rewrite H. reflexivity. Qed.

Lemma bigquery_client_hit (w : World) (b : BigqueryClient) :
  bigquery_cache w = Some b -> bigquery_client P w = (Ok b, w).
Proof. intro H. unfold bigquery_client, lru_cache. rewrite H. reflexivity. Qed.

Lemma genai_client_hit (w : World) (g : GenaiClient) :
  genai_cache w = Some g -> genai_client P w = (Ok g, w).
Proof. intro H. unfold genai_client, lru_cache. rewrite H. reflexivity. Qed.

(** The body of [load_credentials], run on an empty cache. *)
Lemma load_credentials_miss (w : World) :
  credentials_cache w = None ->
  load_credentials P w =
    let w1 := log (EvOpen (ADC_PATH P) "r") w in
    match fs w (ADC_PATH P) with
    | Readable s =>
        match json_loads P s with
        | Some (PyDict d) =>
            if has_authorization_fields (PyDict d) && builds_credentials P d
            then let c := mkCredentials (next_id w) d in
                 (Ok c, set_credentials_cache c (bump w1))
            else (Err ParseError, w1)
        | _ => (Err ParseError, w1)
        end
    | _ => (Err FileAccessError, w1)
    end.
Proof.
  intro H.
  unfold load_credentials, lru_cache, bind, open_, json_load, from_authorized_user_info.
  rewrite H.
  destruct (fs w (ADC_PATH P)); try reflexivity.
  destruct (json_loads P content) as [[] |]; try reflexivity.
  destruct (has_authorization_fields (PyDict d)); [| reflexivity].
  destruct (builds_credentials P d); reflexivity.
Qed.

(** The body of [genai_client], run on an empty cache. *)
Lemma genai_client_miss (w : World) :
  genai_cache w = None ->
  genai_client P w =
    let w1 := log (EvGenaiClient true PROJECT_ID GENAI_LOCATION None None) w in
    match genai_Client_raises P (trace w) true PROJECT_ID GENAI_LOCATION with
    | Some e => (Err e, w1)
    | None =>
        let g := mkGenaiClient (next_id w) true PROJECT_ID GENAI_LOCATION None None in
        (Ok g, set_genai_cache g (bump w1))
    end.
Proof.
  intro H. unfold genai_client, lru_cache, genai_Client. rewrite H.
  destruct (genai_Client_raises P (trace w) true PROJECT_ID GENAI_LOCATION); reflexivity.
Qed.

(** The body of [bigquery_client], run on an empty cache. *)
Lemma bigquery_client_miss (w : World) :
  bigquery_cache w = None ->
  bigquery_client P w =
    match load_credentials P w with
    | (Ok c, w1) =>
        let w2 := log (EvBigqueryClient PROJECT_ID c) w1 in
        match bigquery_Client_raises P (trace w1) PROJECT_ID c with
        | Some e => (Err e, w2)
        | None =>
            let b := mkBigqueryClient (next_id w1) PROJECT_ID c in
            (Ok b, set_bigquery_cache b (bump w2))
        end
    | (Err e, w1) => (Err e, w1)
    end.
Proof.
  intro H. unfold bigquery_client, lru_cache, bind, bigquery_Client. rewrite H.
  destruct (load_credentials P w) as [[c | e] w1]; try reflexivity.
  destruct (bigquery_Client_raises P (trace w1) PROJECT_ID c); reflexivity.
Qed.

(** What a call of [load_credentials] leaves behind. *)
Lemma load_credentials_post (w w' : World) (r : result Credentials) :
  load_credentials P w = (r, w') ->
  fs w' = fs w /\
  bigquery_cache w' = bigquery_cache w /\
  genai_cache w' = genai_cache w /\
  match r with
  | Ok c => credentials_cache w' = Some c
  | Err _ => credentials_cache w = None /\ credentials_cache w' = None
  end.
Proof.
  intro H.
  destruct (credentials_cache w) as [c |] eqn:Hc.
  - rewrite (load_credentials_hit w c Hc) in H. inversion H; subst. auto.
  - rewrite (load_credentials_miss w Hc) in H. split_hyp H; auto.
Qed.

Lemma genai_client_post (w w' : World) (r : result GenaiClient) :
  genai_client P w = (r, w') ->
  fs w' = fs w /\
  credentials_cache w' = credentials_cache w /\
  bigquery_cache w' = bigquery_cache w /\
  opens (trace w') = opens (trace w) /\
  requests (trace w') = requests (trace w) /\
  match r with
  | Ok g => genai_cache w' = Some g
  | Err _ => genai_cache w = None /\ genai_cache w' = None
  end.
Proof.
  intro H.
  destruct (genai_cache w) as [g |] eqn:Hg.
  - rewrite (genai_client_hit w g Hg) in H. inversion H; subst. auto 6.
  - rewrite (genai_client_miss w Hg) in H. split_hyp H; auto 7.
Qed.

Lemma bigquery_client_post (w w' : World) (r : result BigqueryClient) :
  bigquery_client P w = (r, w') ->
  fs w' = fs w /\
  genai_cache w' = genai_cache w /\
  (forall c, credentials_cache w = Some c ->
             credentials_cache w' = Some c /\ opens (trace w') = opens (trace w)) /\
  match r with
  | Ok b => bigquery_cache w' = Some b
  | Err _ => bigquery_cache w = None /\ bigquery_cache w' = None
  end.
Proof.
  intro H.
  destruct (bigquery_cache w) as [b |] eqn:Hb.
  - rewrite (bigquery_client_hit w b Hb) in H. inversion H; subst. auto.
  - rewrite (bigquery_client_miss w Hb) in H.
    destruct (load_credentials P w) as [[c | e] w1] eqn:Hl.
    + destruct (load_credentials_post _ _ _ Hl) as (Hfs & Hbq & Hg & Hc).
      assert (Hkeep : forall c0, credentials_cache w = Some c0 -> w1 = w).
      { intros c0 Hc0. rewrite (load_credentials_hit w c0 Hc0) in Hl.
        inversion Hl; reflexivity. }
      split_hyp H;
        (split; [congruence |]); (split; [congruence |]);
        (split; [| try split; congruence]);
        intros c0 Hc0; rewrite (Hkeep c0 Hc0) in *; auto.
    + destruct (load_credentials_post _ _ _ Hl) as (Hfs & Hbq & Hg & Hc1 & Hc2).
      inversion H; subst.
      split; [congruence |]. split; [congruence |]. split; [| split; congruence].
      intros c0 Hc0. congruence.
Qed.

(** The body of [gemini_function_calling_example]. *)
Lemma gemini_function_calling_example_eq (w : World) :
  gemini_function_calling_example P w =
    match genai_client P w with
    | (Ok client, w1) =>
        (models_generate_content P (trace w1) client the_request,
         log (EvGenerateContent client the_request) w1)
    | (Err e, w1) => (Err e, w1)
    end.
Proof.
  unfold gemini_function_calling_example, function_calling_example, bind, ret,
    generate_content, the_request.
  cbv beta iota zeta.
  destruct (genai_client P w) as [[client | e] w1]; try reflexivity.
  destruct (models_generate_content P (trace w1) client _); reflexivity.
Qed.

Lemma gemini_function_calling_example_post (w w' : World) (r : result Response) :
  gemini_function_calling_example P w = (r, w') ->
  fs w' = fs w /\
  credentials_cache w' = credentials_cache w /\
  bigquery_cache w' = bigquery_cache w /\
  opens (trace w') = opens (trace w) /\
  (forall g, genai_cache w = Some g -> genai_cache w' = Some g).
Proof.
  intro H. rewrite gemini_function_calling_example_eq in H.
  destruct (genai_client P w) as [[client | e] w1] eqn:Hg;
    destruct (genai_client_post _ _ _ Hg) as (Hfs & Hc & Hb & Ho & _ & Hr);
    inversion H; subst; unfold opens in *; simpl;
    (split; [congruence |]); (split; [congruence |]); (split; [congruence |]);
    (split; [congruence |]); intros g Hgc.
  - rewrite (genai_client_hit w g Hgc) in Hg. inversion Hg; subst. exact Hgc.
  - destruct Hr; congruence.
Qed.

Lemma keeps_refl (w : World) : keeps w w.
Proof. unfold keeps. auto. Qed.

Lemma keeps_trans (w1 w2 w3 : World) : keeps w1 w2 -> keeps w2 w3 -> keeps w1 w3.
Proof.
  intros (Hc & Hb & Hg) (Hc' & Hb' & Hg').
  split; [| split]; auto.
  intros c H. destruct (Hc c H) as [H1 H2]. destruct (Hc' c H1) as [H3 H4].
  split; congruence.
Qed.

Lemma run_call_value (A : Type) (m : M A) (f : A -> @value Response) (w : World) :
  (x <- m ;; ret (f x)) w =
    (match fst (m w) with Ok a => Ok (f a) | Err e => Err e end, snd (m w)).
Proof. unfold bind, ret. destruct (m w) as [[a | e] w']; reflexivity. Qed.

(** No call un-caches anything. *)
Lemma run_call_keeps (c : call) (w : World) : keeps w (snd (run_call P c w)).
Proof.
  destruct c; simpl; try rewrite run_call_value; simpl; try apply keeps_refl.
  - destruct (load_credentials P w) as [r w'] eqn:H. simpl.
    destruct (load_credentials_post _ _ _ H) as (_ & Hb & Hg & _).
    split; [| split; intros; congruence].
    intros c Hc. rewrite (load_credentials_hit w c Hc) in H. inversion H; subst. auto.
  - destruct (bigquery_client P w) as [r w'] eqn:H. simpl.
    destruct (bigquery_client_post _ _ _ H) as (_ & Hg & Hc & _).
    split; [exact Hc | split; [| intros; congruence]].
    intros b Hb. rewrite (bigquery_client_hit w b Hb) in H. inversion H; subst. auto.
  - destruct (genai_client P w) as [r w'] eqn:H. simpl.
    destruct (genai_client_post _ _ _ H) as (_ & Hc & Hb & Ho & _ & _).
    split; [| split; [intros; congruence |]].
    + intros c Hcc. split; congruence.
    + intros g Hg. rewrite (genai_client_hit w g Hg) in H. inversion H; subst. auto.
  - destruct (gemini_function_calling_example P w) as [r w'] eqn:H. simpl.
    destruct (gemini_function_calling_example_post _ _ _ H) as (_ & Hc & Hb & Ho & Hg).
    split; [| split; [intros; congruence | exact Hg]].
    intros c Hcc. split; congruence.
  - unfold keeps. simpl. auto.
Qed.

Lemma run_calls_cons (c : call) (cs : list call) (w : World) :
  snd (run_calls P (c :: cs) w) = snd (run_calls P cs (snd (run_call P c w))).
Proof.
  simpl. destruct (run_call P c w) as [r w']. simpl.
  destruct (run_calls P cs w') as [rs w'']. reflexivity.
Qed.

Lemma run_calls_keeps (cs : list call) (w : World) : keeps w (snd (run_calls P cs w)).
Proof.
  revert w. induction cs as [| c cs IH]; intro w.
  - apply keeps_refl.
  - rewrite run_calls_cons.
    eapply keeps_trans; [apply run_call_keeps | apply IH].
Qed.

Lemma run_calls_fst_cons (c : call) (cs : list call) (w : World) :
  fst (run_calls P (c :: cs) w) =
    fst (run_call P c w) :: fst (run_calls P cs (snd (run_call P c w))).
Proof.
  simpl. destruct (run_call P c w) as [r w']. simpl.
  destruct (run_calls P cs w') as [rs w'']. reflexivity.
Qed.

(** With credentials cached, every [load_credentials] of a sequence of calls
    returns them. *)
Lemma run_calls_load_credentials (cs : list call) :
  forall (w : World) (c : Credentials),
    credentials_cache w = Some c ->
    forall i, nth_error cs i = Some CallLoadCredentials ->
              nth_error (fst (run_calls P cs w)) i = Some (Ok (VCredentials c)).
Proof.
  induction cs as [| c0 cs IH]; intros w c Hc i Hi.
  - destruct i; discriminate Hi.
  - rewrite run_calls_fst_cons. destruct i as [| i]; simpl in Hi |- *.
    + inversion Hi; subst c0. simpl. rewrite run_call_value.
      rewrite (load_credentials_hit w c Hc). reflexivity.
    + apply IH; [| exact Hi].
      destruct (run_call_keeps c0 w) as (Hk & _). apply (Hk c Hc).
Qed.

Lemma load_credentials_opens (w w' : World) (r : result Credentials) :
  load_credentials P w = (r, w') -> opens (trace w') <= S (opens (trace w)).
Proof.
  intro H.
  destruct (credentials_cache w) as [c |] eqn:Hc.
  - rewrite (load_credentials_hit w c Hc) in H. inversion H; subst. lia.
  - rewrite (load_credentials_miss w Hc) in H. unfold opens.
    split_hyp H; lia.
Qed.

(** C6: a call of [load_credentials] on an empty cache opens the file, once.
    Once it has returned credentials, then after any further calls (the file
    may be replaced or removed meanwhile) it returns the identical object and
    the filesystem has not been touched again; every [load_credentials] among
    those calls returned that object.  [bigquery_client] returns a client as
    soon as credentials load and the constructor accepts them, and
    [genai_client] as soon as its constructor succeeds; an accessor that has
    returned a client returns the identical client ever after. *)
Theorem caches_return_identical_instance (cs : list call) (w : World) :
  (credentials_cache w = None ->
     opens (trace (snd (load_credentials P w))) = S (opens (trace w))) /\
  (forall c w1,
     load_credentials P w = (Ok c, w1) ->
     let w2 := snd (run_calls P cs w1) in
     opens (trace w1) <= S (opens (trace w)) /\
     (forall i, nth_error cs i = Some CallLoadCredentials ->
                nth_error (fst (run_calls P cs w1)) i = Some (Ok (VCredentials c))) /\
     load_credentials P w2 = (Ok c, w2) /\
     opens (trace w2) = opens (trace w1)) /\
  (forall c w1,
     bigquery_cache w = None ->
     load_credentials P w = (Ok c, w1) ->
     bigquery_Client_raises P (trace w1) PROJECT_ID c = None ->
     fst (bigquery_client P w) = Ok (mkBigqueryClient (next_id w1) PROJECT_ID c)) /\
  (forall b w1,
     bigquery_client P w = (Ok b, w1) ->
     let w2 := snd (run_calls P cs w1) in
     bigquery_client P w2 = (Ok b, w2)) /\
  (genai_cache w = None ->
   genai_Client_raises P (trace w) true PROJECT_ID GENAI_LOCATION = None ->
   fst (genai_client P w) =
     Ok (mkGenaiClient (next_id w) true PROJECT_ID GENAI_LOCATION None None)) /\
  (forall g w1,
     genai_client P w = (Ok g, w1) ->
     let w2 := snd (run_calls P cs w1) in
     genai_client P w2 = (Ok g, w2)).
Proof.
  split; [| split; [| split; [| split; [| split]]]].
  - intro Hc. rewrite (load_credentials_miss w Hc). unfold opens.
    destruct (fs w (ADC_PATH P)) as [| | s]; try reflexivity.
    destruct (json_loads P s) as [[] |]; try reflexivity.
    destruct (has_authorization_fields (PyDict d) && builds_credentials P d);
      reflexivity.
  - intros c w1 H w2.
    destruct (load_credentials_post _ _ _ H) as (_ & _ & _ & Hc).
    destruct (run_calls_keeps cs w1) as (Hk & _).
    destruct (Hk c Hc) as [Hc2 Ho].
    split; [exact (load_credentials_opens _ _ _ H) |].
    split; [intros i Hi; exact (run_calls_load_credentials cs w1 c Hc i Hi) |].
    split; [apply load_credentials_hit; exact Hc2 | exact Ho].
  - intros c w1 Hb Hl He.
    rewrite (bigquery_client_miss w Hb), Hl. simpl. rewrite He. reflexivity.
  - intros b w1 H w2.
    destruct (bigquery_client_post _ _ _ H) as (_ & _ & _ & Hb).
    destruct (run_calls_keeps cs w1) as (_ & Hk & _).
    apply bigquery_client_hit. apply Hk. exact Hb.
  - intros Hg He. rewrite (genai_client_miss w Hg). simpl. rewrite He. reflexivity.
  - intros g w1 H w2.
    destruct (genai_client_post _ _ _ H) as (_ & _ & _ & _ & _ & Hg).
    destruct (run_calls_keeps cs w1) as (_ & _ & Hk).
    apply genai_client_hit. apply Hk. exact Hg.
Qed.

Lemma bigquery_client_built (w w' : World) (b : BigqueryClient) :
  clients_as_built w ->
  bigquery_client P w = (Ok b, w') ->
  bq_project b = PROJECT_ID /\ credentials_cache w' = Some (bq_credentials b).
Proof.
  intros (Hb & _) H.
  destruct (bigquery_cache w) as [b0 |] eqn:Hc.
  - rewrite (bigquery_client_hit w b0 Hc) in H. inversion H; subst. auto.
  - rewrite (bigquery_client_miss w Hc) in H.
    destruct (load_credentials P w) as [[c | e] w1] eqn:Hl; [| discriminate H].
    destruct (load_credentials_post _ _ _ Hl) as (_ & _ & _ & Hcc).
    split_hyp H. auto.
Qed.

Lemma genai_client_built (w w' : World) (g : GenaiClient) :
  clients_as_built w ->
  genai_client P w = (Ok g, w') ->
  genai_vertexai g = true /\
  genai_project g = PROJECT_ID /\
  genai_location g = GENAI_LOCATION /\
  genai_credentials g = None /\
  genai_api_key g = None.
Proof.
  intros (_ & Hg) H.
  destruct (genai_cache w) as [g0 |] eqn:Hc.
  - rewrite (genai_client_hit w g0 Hc) in H. inversion H; subst. auto.
  - rewrite (genai_client_miss w Hc) in H. split_hyp H. auto 6.
Qed.

Lemma run_call_clients_as_built (c : call) (w : World) :
  clients_as_built w -> clients_as_built (snd (run_call P c w)).
Proof.
  intro Inv. pose proof Inv as (Hb & Hg).
  destruct c; simpl; try rewrite run_call_value; simpl; try exact Inv.
  - destruct (load_credentials P w) as [r w'] eqn:H. simpl.
    destruct (load_credentials_post _ _ _ H) as (_ & Hbq & Hgc & _).
    split.
    + intros b Hb'. rewrite Hbq in Hb'. destruct (Hb b Hb') as [H1 H2].
      rewrite (load_credentials_hit w _ H2) in H. inversion H; subst. auto.
    + intros g Hg'. rewrite Hgc in Hg'. auto.
  - destruct (bigquery_client P w) as [r w'] eqn:H. simpl.
    destruct (bigquery_client_post _ _ _ H) as (_ & Hgc & _ & Hr).
    split.
    + intros b Hb'. destruct r as [b0 | e].
      * assert (b0 = b) by congruence. subst b0.
        exact (bigquery_client_built _ _ _ Inv H).
      * destruct Hr; congruence.
    + intros g Hg'. rewrite Hgc in Hg'. auto.
  - destruct (genai_client P w) as [r w'] eqn:H. simpl.
    destruct (genai_client_post _ _ _ H) as (_ & Hcc & Hbq & _ & _ & Hr).
    split.
    + intros b Hb'. rewrite Hbq in Hb'. rewrite Hcc. auto.
    + intros g Hg'. destruct r as [g0 | e].
      * assert (g0 = g) by congruence. subst g0.
        exact (genai_client_built _ _ _ Inv H).
      * destruct Hr; congruence.
  - destruct (gemini_function_calling_example P w) as [r w'] eqn:H. simpl.
    destruct (gemini_function_calling_example_post _ _ _ H) as (_ & Hcc & Hbq & _ & _).
    rewrite gemini_function_calling_example_eq in H.
    destruct (genai_client P w) as [[client | e] w1] eqn:Hcl.
    + destruct (genai_client_post _ _ _ Hcl) as (_ & _ & _ & _ & _ & Hr).
      inversion H; subst. simpl in *. split.
      * intros b Hb'. simpl in *. rewrite Hbq in Hb'. rewrite Hcc. auto.
      * intros g Hg'. simpl in *. assert (client = g) by congruence. subst client.
        exact (genai_client_built _ _ _ Inv Hcl).
    + destruct (genai_client_post _ _ _ Hcl) as (_ & _ & _ & _ & _ & Hr & Hr').
      inversion H; subst. split.
      * intros b Hb'. rewrite Hbq in Hb'. rewrite Hcc. auto.
      * intros g Hg'. congruence.
Qed.

Lemma run_calls_clients_as_built (cs : list call) (w : World) :
  clients_as_built w -> clients_as_built (snd (run_calls P cs w)).
Proof.
  revert w. induction cs as [| c cs IH]; intros w Inv.
  - exact Inv.
  - rewrite run_calls_cons. apply IH. apply run_call_clients_as_built. exact Inv.
Qed.

Lemma process_start_clients_as_built (w : World) :
  process_start w -> clients_as_built w.
Proof.
  intros (_ & Hb & Hg). split; intros x Hx; congruence.
Qed.

(** C5: in a process that started with empty caches, after any calls.
    [bigquery_client], on a cache miss, first gets credentials from
    [load_credentials] and then calls [bigquery.Client] with PROJECT_ID and
    those credentials, returning the client when the constructor accepts
    them; a client it returns authenticates with the very credentials
    [load_credentials] returns.  [genai_client], on a cache miss, calls
    [genai.Client] with vertexai=True, PROJECT_ID and GENAI_LOCATION and
    neither credentials nor an API key, whether or not credentials are
    loaded, and returns the client when the constructor succeeds; a client it
    returns authenticates by ambient identity, and the call neither reads the
    credentials file nor touches the cached credentials. *)
Theorem clients_authenticate_asymmetrically (cs : list call) (w0 : World) :
  process_start w0 ->
  let w := snd (run_calls P cs w0) in
  (forall c w1,
     bigquery_cache w = None ->
     load_credentials P w = (Ok c, w1) ->
     trace (snd (bigquery_client P w)) = EvBigqueryClient PROJECT_ID c :: trace w1 /\
     (bigquery_Client_raises P (trace w1) PROJECT_ID c = None ->
      fst (bigquery_client P w) = Ok (mkBigqueryClient (next_id w1) PROJECT_ID c))) /\
  (forall b w',
     bigquery_client P w = (Ok b, w') ->
     bq_project b = PROJECT_ID /\
     bigquery_auth b = Explicit (bq_credentials b) /\
     load_credentials P w' = (Ok (bq_credentials b), w') /\
     (bigquery_cache w = None ->
      hd_error (trace w') = Some (EvBigqueryClient PROJECT_ID (bq_credentials b)))) /\
  (genai_cache w = None ->
     trace (snd (genai_client P w)) =
       EvGenaiClient true PROJECT_ID GENAI_LOCATION None None :: trace w /\
     credentials_cache (snd (genai_client P w)) = credentials_cache w /\
     (genai_Client_raises P (trace w) true PROJECT_ID GENAI_LOCATION = None ->
      fst (genai_client P w) =
        Ok (mkGenaiClient (next_id w) true PROJECT_ID GENAI_LOCATION None None))) /\
  (forall g w',
     genai_client P w = (Ok g, w') ->
     genai_auth g = Ambient /\
     genai_vertexai g = true /\
     genai_project g = PROJECT_ID /\
     genai_location g = GENAI_LOCATION /\
     genai_credentials g = None /\
     genai_api_key g = None /\
     credentials_cache w' = credentials_cache w /\
     opens (trace w') = opens (trace w) /\
     (genai_cache w = None ->
      hd_error (trace w') =
        Some (EvGenaiClient true PROJECT_ID GENAI_LOCATION None None))).
Proof.
  intros Hstart w.
  assert (Inv : clients_as_built w).
  { apply run_calls_clients_as_built, process_start_clients_as_built, Hstart. }
  split; [| split; [| split]].
  - intros c w1 Hb Hl.
    rewrite (bigquery_client_miss w Hb), Hl. simpl.
    destruct (bigquery_Client_raises P (trace w1) PROJECT_ID c) as [e |].
    + split; [reflexivity | discriminate].
    + split; reflexivity.
  - intros b w' H.
    destruct (bigquery_client_built _ _ _ Inv H) as [Hp Hc].
    split; [exact Hp |]. split; [reflexivity |].
    split; [apply load_credentials_hit; exact Hc |].
    intro Hmiss. rewrite (bigquery_client_miss w Hmiss) in H.
    destruct (load_credentials P w) as [[c | e] w1]; [| discriminate H].
    split_hyp H. reflexivity.
  - intro Hg. rewrite (genai_client_miss w Hg). simpl.
    destruct (genai_Client_raises P (trace w) true PROJECT_ID GENAI_LOCATION) as [e |].
    + split; [reflexivity |]. split; [reflexivity | discriminate].
    + split; [reflexivity |]. split; reflexivity.
  - intros g w' H.
    destruct (genai_client_built _ _ _ Inv H) as (H1 & H2 & H3 & H4 & H5).
    destruct (genai_client_post _ _ _ H) as (_ & Hcc & _ & Ho & _ & _).
    split; [unfold genai_auth; rewrite H4, H5; reflexivity |].
    repeat (split; [assumption |]).
    intro Hmiss. rewrite (genai_client_miss w Hmiss) in H.
    split_hyp H. reflexivity.
Qed.

(** C4, as the code has it: with the credentials file missing and no
    credentials cached, [load_credentials] fails with a FileAccessError and,
    unless a BigQuery client is already cached, so does [bigquery_client]
    afterwards; [genai_client] does not look at the file: it returns its
    cached client or whatever [genai.Client] gives. *)
Theorem missing_credentials_file (w : World) :
  fs w (ADC_PATH P) = Missing ->
  credentials_cache w = None ->
  let w' := snd (load_credentials P w) in
  fst (load_credentials P w) = Err FileAccessError /\
  (bigquery_cache w = None -> fst (bigquery_client P w') = Err FileAccessError) /\
  fst (genai_client P w') =
    match genai_cache w with
    | Some g => Ok g
    | None =>
        match genai_Client_raises P (trace w') true PROJECT_ID GENAI_LOCATION with
        | Some e => Err e
        | None => Ok (mkGenaiClient (next_id w) true PROJECT_ID GENAI_LOCATION None None)
        end
    end.
Proof.
  intros Hfs Hc w'. subst w'.
  rewrite (load_credentials_miss w Hc), Hfs. simpl.
  set (w1 := log (EvOpen (ADC_PATH P) "r") w).
  assert (Hc1 : credentials_cache w1 = None) by exact Hc.
  assert (Hfs1 : fs w1 (ADC_PATH P) = Missing) by exact Hfs.
  split; [reflexivity |]. split.
  - intro Hb. assert (Hb1 : bigquery_cache w1 = None) by exact Hb.
    rewrite (bigquery_client_miss w1 Hb1), (load_credentials_miss w1 Hc1), Hfs1.
    reflexivity.
  - destruct (genai_cache w) as [g |] eqn:Hg.
    + assert (Hg1 : genai_cache w1 = Some g) by exact Hg.
      rewrite (genai_client_hit w1 g Hg1). reflexivity.
    + assert (Hg1 : genai_cache w1 = None) by exact Hg.
      rewrite (genai_client_miss w1 Hg1). simpl.
      destruct (genai_Client_raises P (EvOpen (ADC_PATH P) "r" :: trace w) true
                  PROJECT_ID GENAI_LOCATION); reflexivity.
Qed.

(** C7, as the code has it: a call of [load_credentials] served from the
    cache returns the cached credentials whatever the file.  A call that
    finds the cache empty fails with a FileAccessError exactly when the file
    is missing or unreadable; it fails with a ParseError exactly when the
    content is not valid JSON, or lacks required authorization fields, or has
    them and the library rejects another field; it fails in no other way.
    In every state, a failure of [load_credentials], of a constructor or of
    the request comes out of the function that made the call as it is, with
    the state the failing call left. *)
Theorem load_credentials_failures (w : World) :
  (forall c, credentials_cache w = Some c -> load_credentials P w = (Ok c, w)) /\
  (credentials_cache w = None ->
     (fst (load_credentials P w) = Err FileAccessError <->
        fs w (ADC_PATH P) = Missing \/ fs w (ADC_PATH P) = Unreadable) /\
     (fst (load_credentials P w) = Err ParseError <->
        exists s, fs w (ADC_PATH P) = Readable s /\
                  (json_loads P s = None \/
                   exists info, json_loads P s = Some info /\
                     (has_authorization_fields info = false \/
                      exists d, info = PyDict d /\ builds_credentials P d = false))) /\
     (forall e, fst (load_credentials P w) = Err e ->
                e = FileAccessError \/ e = ParseError)) /\
  (forall e, bigquery_cache w = None ->
             fst (load_credentials P w) = Err e ->
             bigquery_client P w = (Err e, snd (load_credentials P w))) /\
  (forall c w1 e, bigquery_cache w = None ->
                  load_credentials P w = (Ok c, w1) ->
                  bigquery_Client_raises P (trace w1) PROJECT_ID c = Some e ->
                  fst (bigquery_client P w) = Err e) /\
  (forall e, genai_cache w = None ->
             genai_Client_raises P (trace w) true PROJECT_ID GENAI_LOCATION = Some e ->
             fst (genai_client P w) = Err e) /\
  (forall e, fst (genai_client P w) = Err e ->
             gemini_function_calling_example P w = (Err e, snd (genai_client P w))) /\
  (forall client w1 e,
     genai_client P w = (Ok client, w1) ->
     models_generate_content P (trace w1) client the_request = Err e ->
     fst (gemini_function_calling_example P w) = Err e).
Proof.
  split; [exact (load_credentials_hit w) |].
  split; [intro Hc; split; [| split] |
          split; [| split; [| split; [| split]]]].
  - rewrite (load_credentials_miss w Hc). simpl.
    destruct (fs w (ADC_PATH P)) as [| | s]; simpl.
    + tauto.
    + tauto.
    + split; [| intros [H | H]; discriminate H].
      destruct (json_loads P s) as [[] |]; simpl; try discriminate.
      destruct (has_authorization_fields (PyDict d) && builds_credentials P d);
        discriminate.
  - rewrite (load_credentials_miss w Hc). simpl.
    destruct (fs w (ADC_PATH P)) as [| | s]; simpl.
    + split; [discriminate | intros (s & H & _); discriminate H].
    + split; [discriminate | intros (s & H & _); discriminate H].
    + split.
      * intro H. exists s. split; [reflexivity |].
        destruct (json_loads P s) as [info |]; [right | left; reflexivity].
        exists info. split; [reflexivity |].
        destruct info; try (left; reflexivity).
        destruct (has_authorization_fields (PyDict d)); [| left; reflexivity].
        destruct (builds_credentials P d) eqn:Hb; [discriminate H |].
        right. exists d. split; [reflexivity | exact Hb].
      * intros (s' & Hs & H). inversion Hs; subst s'.
        destruct H as [H | (info & H & Hf)]; rewrite H; [reflexivity |].
        destruct info; try reflexivity.
        destruct Hf as [Hf | (d' & Hd & Hb)].
        -- rewrite Hf. reflexivity.
        -- inversion Hd; subst d'. rewrite Hb, andb_false_r. reflexivity.
  - intro e. rewrite (load_credentials_miss w Hc). simpl.
    destruct (fs w (ADC_PATH P)) as [| | s]; simpl;
      try (intro H; inversion H; auto; fail).
    destruct (json_loads P s) as [[] |]; simpl;
      try (intro H; inversion H; auto; fail).
    destruct (has_authorization_fields (PyDict d) && builds_credentials P d); simpl;
      intro H; inversion H; auto.
  - intros e Hb H. rewrite (bigquery_client_miss w Hb).
    destruct (load_credentials P w) as [[c | e'] w1]; simpl in *; congruence.
  - intros c w1 e Hb Hl He. rewrite (bigquery_client_miss w Hb), Hl. simpl.
    rewrite He. reflexivity.
  - intros e Hg He. rewrite (genai_client_miss w Hg). simpl. rewrite He. reflexivity.
  - intros e H. rewrite gemini_function_calling_example_eq.
    destruct (genai_client P w) as [[client | e'] w1]; simpl in *; congruence.
  - intros client w1 e Hg He. rewrite gemini_function_calling_example_eq, Hg.
    simpl. exact He.
Qed.

(** C1, as the code has it: [gemini_function_calling_example] takes no
    prompt; it is the specification's [generate_with_tools] at the empty
    prompt.  It builds two tools, the second around an empty declaration, and
    a configuration with temperature 0.3, gets the client from [genai_client],
    sends one request to "gemini-2.0-flash-lite" and returns what the service
    answers; when no client can be had, no request is sent. *)
Theorem gemini_function_calling_example_request (w : World) :
  gemini_function_calling_example P w = spec_generate_with_tools P "" w /\
  model the_request = "gemini-2.0-flash-lite" /\
  contents the_request = "" /\
  tools (config the_request) = [mkTool [update_session_decl]; mkTool [PyDict []]] /\
  length (tools (config the_request)) = 2 /\
  temperature (config the_request) = 0.3%float /\
  match genai_client P w with
  | (Ok client, w1) =>
      fst (gemini_function_calling_example P w) =
        models_generate_content P (trace w1) client the_request /\
      trace (snd (gemini_function_calling_example P w)) =
        EvGenerateContent client the_request :: trace w1 /\
      requests (trace (snd (gemini_function_calling_example P w))) =
        S (requests (trace w))
  | (Err e, w1) =>
      gemini_function_calling_example P w = (Err e, w1) /\
      requests (trace w1) = requests (trace w)
  end.
Proof.
  split.
  { unfold gemini_function_calling_example, spec_generate_with_tools,
      function_calling_example, bind, ret, generate_content.
    cbv beta iota zeta.
    destruct (genai_client P w) as [[client | e] w1]; try reflexivity.
    destruct (models_generate_content P (trace w1) client _); reflexivity. }
  repeat (split; [reflexivity |]).
  rewrite gemini_function_calling_example_eq.
  destruct (genai_client P w) as [[client | e] w1] eqn:Hg;
    destruct (genai_client_post _ _ _ Hg) as (_ & _ & _ & _ & Hr & _); simpl.
  - split; [reflexivity |]. split; [reflexivity |].
    unfold requests in *. simpl. congruence.
  - split; [reflexivity | exact Hr].
Qed.

End Provider.

(** ** The properties at work on the mock platform *)

(** C6 on a run: credentials are loaded, the file is removed, further calls
    are made; the same credentials come back and the file was opened once.
    Both accessors return a client in a fresh process, and the same client
    after those further calls. *)
Lemma caches_return_identical_instance_witness :
  let w := fresh (Readable "authorized user") in
  let cs := [EnvSetFile (ADC_PATH mock) Missing; CallLoadCredentials;
             CallBigqueryClient; CallGenaiClient;
             CallGeminiFunctionCallingExample] in
  let w1 := snd (load_credentials mock w) in
  let w2 := snd (run_calls mock cs w1) in
  let wb := snd (run_calls mock cs (snd (bigquery_client mock w))) in
  let wg := snd (run_calls mock cs (snd (genai_client mock w))) in
  opens (trace w1) = 1 /\
  load_credentials mock w = (Ok mock_credentials, w1) /\
  load_credentials mock w2 = (Ok mock_credentials, w2) /\
  opens (trace w2) = opens (trace w1) /\
  fst (bigquery_client mock w) = Ok mock_bigquery_client /\
  bigquery_client mock wb = (Ok mock_bigquery_client, wb) /\
  fst (genai_client mock w) = Ok mock_genai_client /\
  genai_client mock wg = (Ok mock_genai_client, wg).
Proof.
  intros w cs w1 w2 wb wg.
  destruct (caches_return_identical_instance mock cs w)
    as (Ho & Hc & Hb1 & Hb2 & Hg1 & Hg2).
  destruct (Hc mock_credentials w1 eq_refl) as (_ & _ & H1 & H2).
  split; [exact (Ho eq_refl) |].
  split; [reflexivity |]. split; [exact H1 |]. split; [exact H2 |].
  split; [exact (Hb1 mock_credentials w1 eq_refl eq_refl eq_refl) |].
  split; [exact (Hb2 mock_bigquery_client (snd (bigquery_client mock w)) eq_refl) |].
  split; [exact (Hg1 eq_refl eq_refl) |].
  exact (Hg2 mock_genai_client (snd (genai_client mock w)) eq_refl).
Defined.

(** C5 on a run: with credentials loaded, [bigquery_client] returns a client
    that carries them and [genai_client] returns one that carries none. *)
Lemma clients_authenticate_asymmetrically_witness :
  let w0 := fresh (Readable "authorized user") in
  let w := snd (run_calls mock [CallLoadCredentials] w0) in
  process_start w0 /\
  credentials_cache w = Some mock_credentials /\
  fst (bigquery_client mock w) = Ok mock_bigquery_client /\
  bigquery_auth mock_bigquery_client = Explicit mock_credentials /\
  trace (snd (bigquery_client mock w)) =
    EvBigqueryClient PROJECT_ID mock_credentials :: trace w /\
  fst (genai_client mock w) =
    Ok (mkGenaiClient 1 true PROJECT_ID GENAI_LOCATION None None) /\
  genai_auth (mkGenaiClient 1 true PROJECT_ID GENAI_LOCATION None None) = Ambient /\
  trace (snd (genai_client mock w)) =
    EvGenaiClient true PROJECT_ID GENAI_LOCATION None None :: trace w.
Proof.
  intros w0 w.
  assert (Hs : process_start w0) by (repeat split; reflexivity).
  destruct (clients_authenticate_asymmetrically mock [CallLoadCredentials] w0 Hs)
    as (Hb1 & Hb2 & Hg1 & Hg2).
  destruct (Hb1 mock_credentials w eq_refl eq_refl) as (Ht & Hok).
  destruct (Hb2 mock_bigquery_client (snd (bigquery_client mock w)) eq_refl)
    as (_ & Ha & _).
  destruct (Hg1 eq_refl) as (Hgt & _ & Hgok).
  destruct (Hg2 (mkGenaiClient 1 true PROJECT_ID GENAI_LOCATION None None)
                (snd (genai_client mock w)) eq_refl) as (Hga & _).
  split; [exact Hs |]. split; [reflexivity |].
  split; [exact (Hok eq_refl) |]. split; [exact Ha |]. split; [exact Ht |].
  split; [exact (Hgok eq_refl) |]. split; [exact Hga | exact Hgt].
Defined.

(** C4 on a run: a fresh process whose credentials file is missing. *)
Lemma missing_credentials_file_witness :
  let w := fresh Missing in
  fst (load_credentials mock w) = Err FileAccessError /\
  fst (bigquery_client mock (snd (load_credentials mock w))) = Err FileAccessError.
Proof.
  intro w.
  destruct (missing_credentials_file mock w eq_refl eq_refl) as (H1 & H2 & _).
  split; [exact H1 | exact (H2 eq_refl)].
Defined.

(** C4 fails as stated: in that same process [genai_client] succeeds after
    [load_credentials] has failed. *)
Lemma genai_client_succeeds_without_credentials_file :
  let w := fresh Missing in
  fs w (ADC_PATH mock) = Missing /\
  fst (load_credentials mock w) = Err FileAccessError /\
  fst (genai_client mock (snd (load_credentials mock w))) = Ok mock_genai_client.
Proof. repeat split; reflexivity. Qed.

(** C7 on a run: a missing file, a file that holds no JSON, an object
    without the fields, and credentials served from the cache. *)
Lemma load_credentials_failures_witness :
  let cached := snd (load_credentials mock (fresh (Readable "authorized user"))) in
  fst (load_credentials mock (fresh Missing)) = Err FileAccessError /\
  fst (load_credentials mock (fresh (Readable "not json"))) = Err ParseError /\
  fst (load_credentials mock (fresh (Readable "empty object"))) = Err ParseError /\
  fst (bigquery_client mock (fresh (Readable "not json"))) = Err ParseError /\
  load_credentials mock cached = (Ok mock_credentials, cached).
Proof.
  intro cached.
  destruct (load_credentials_failures mock (fresh Missing)) as (_ & H0 & _).
  destruct (H0 eq_refl) as (Hf & _).
  destruct (load_credentials_failures mock (fresh (Readable "not json")))
    as (_ & H1 & Hb & _).
  destruct (H1 eq_refl) as (_ & Hp1 & _).
  destruct (load_credentials_failures mock (fresh (Readable "empty object")))
    as (_ & H2 & _).
  destruct (H2 eq_refl) as (_ & Hp2 & _).
  destruct (load_credentials_failures mock cached) as (Hc & _).
  assert (E1 : fst (load_credentials mock (fresh (Readable "not json"))) = Err ParseError).
  { apply Hp1. exists "not json". split; [reflexivity | left; reflexivity]. }
  split; [apply Hf; left; reflexivity |].
  split; [exact E1 |].
  split.
  { apply Hp2. exists "empty object". split; [reflexivity |]. right.
    exists (PyDict []). split; [reflexivity | left; reflexivity]. }
  split; [rewrite (Hb ParseError eq_refl E1); reflexivity |].
  exact (Hc mock_credentials eq_refl).
Defined.

(** C7 fails as stated, twice.  Credentials are loaded, then the file is
    removed: the path does not exist and [load_credentials] does not fail.
    And a file that is valid JSON with all the required fields, but an
    expiry that is no timestamp: [load_credentials] fails with a
    ParseError. *)
Lemma load_credentials_not_exactly_when :
  let w := snd (run_calls mock
                  [CallLoadCredentials; EnvSetFile (ADC_PATH mock) Missing]
                  (fresh (Readable "authorized user"))) in
  let info := PyDict (mock_fields ++ [("expiry", PyStr "not a timestamp")]) in
  (fs w (ADC_PATH mock) = Missing /\
   fst (load_credentials mock w) = Ok mock_credentials /\
   fst (load_credentials mock w) <> Err FileAccessError) /\
  (json_loads mock "bad expiry" = Some info /\
   has_authorization_fields info = true /\
   fst (load_credentials mock (fresh (Readable "bad expiry"))) = Err ParseError).
Proof.
  split; repeat split; try reflexivity.
  intro H. vm_compute in H. discriminate H.
Qed.


(** C1 fails as stated: asked to carry "test prompt", the specification's
    function sends it, while the script sends the empty prompt. *)
Lemma prompt_is_not_an_input :
  let w := fresh Missing in
  fst (gemini_function_calling_example mock w) = Ok the_request /\
  contents the_request = "" /\
  fst (spec_generate_with_tools mock "test prompt" w) <> Ok the_request /\
  gemini_function_calling_example mock w <> spec_generate_with_tools mock "test prompt" w.
Proof.
  intro w.
  assert (Hs : fst (spec_generate_with_tools mock "test prompt" w) <> Ok the_request).
  { intro H. vm_compute in H. discriminate H. }
  split; [reflexivity |]. split; [reflexivity |]. split; [exact Hs |].
  intro H. apply Hs. rewrite <- H. reflexivity.
Qed.

(** ** Failure, retry and what a run may do *)

Section Runs.

Context {Response : Type}.
Variable P : Platform Response.

Local Open Scope list_scope.

Ltac invert_run H :=
  repeat match type of H with
         | context [match ?x with _ => _ end] => destruct x eqn:?
         end;
  inversion H; subst; clear H; simpl in *.

Lemma opens_app (t1 t2 : list event) : opens (t1 ++ t2) = opens t1 + opens t2.
Proof. unfold opens. rewrite filter_app, length_app. reflexivity. Qed.

Lemma requests_app (t1 t2 : list event) :
  requests (t1 ++ t2) = requests t1 + requests t2.
Proof. unfold requests. rewrite filter_app, length_app. reflexivity. Qed.

Lemma load_credentials_err (w w' : World) (e : error) :
  load_credentials P w = (Err e, w') ->
  credentials_cache w = None /\ w' = log (EvOpen (ADC_PATH P) "r") w.
Proof.
  intro H.
  destruct (credentials_cache w) as [c |] eqn:Hc.
  - rewrite (load_credentials_hit P w c Hc) in H. discriminate H.
  - split; [reflexivity |].
    rewrite (load_credentials_miss P w Hc) in H. invert_run H; reflexivity.
Qed.

(** X1: a call of [load_credentials] that fails leaves the process as it
    was but for the one attempt to open the file: nothing is cached (the
    failure neither), nothing is allocated, no file is changed. *)
Theorem load_credentials_failure_leaves_state (w w' : World) (e : error) :
  load_credentials P w = (Err e, w') ->
  w' = log (EvOpen (ADC_PATH P) "r") w /\
  credentials_cache w' = None /\
  bigquery_cache w' = bigquery_cache w /\
  genai_cache w' = genai_cache w /\
  next_id w' = next_id w /\
  opens (trace w') = S (opens (trace w)).
Proof.
  intro H. destruct (load_credentials_err _ _ _ H) as [Hc Hw]. subst w'.
  simpl. auto 6.
Qed.

(** X3: a failure is not remembered.  After a failed [load_credentials], once
    a well-formed file is in place (an object with the required fields that
    the library accepts) the next call reads it and succeeds. *)
Theorem load_credentials_retry (w w' : World) (e : error)
    (s : string) (d : list (string * pyval)) :
  load_credentials P w = (Err e, w') ->
  json_loads P s = Some (PyDict d) ->
  has_authorization_fields (PyDict d) = true ->
  builds_credentials P d = true ->
  let w1 := set_file (ADC_PATH P) (Readable s) w' in
  fst (load_credentials P w1) = Ok (mkCredentials (next_id w) d) /\
  credentials_cache (snd (load_credentials P w1)) = Some (mkCredentials (next_id w) d) /\
  opens (trace (snd (load_credentials P w1))) = 2 + opens (trace w).
Proof.
  intros H Hj Hf Hb w1.
  destruct (load_credentials_err _ _ _ H) as [Hc Hw]. subst w'.
  assert (Hc1 : credentials_cache w1 = None) by exact Hc.
  assert (Hfs : fs w1 (ADC_PATH P) = Readable s).
  { unfold w1. simpl. rewrite String.eqb_refl. reflexivity. }
  rewrite (load_credentials_miss P w1 Hc1), Hfs, Hj, Hf, Hb.
  simpl. auto.
Qed.

(** X4: when [bigquery_client] has obtained credentials and the constructor
    then fails, the credentials stay cached and no client is; the next call
    does not open the file again: all it does is call the constructor with
    the same credentials. *)
Theorem bigquery_client_constructor_failure (w w1 : World) (c : Credentials)
    (e : error) :
  bigquery_cache w = None ->
  load_credentials P w = (Ok c, w1) ->
  bigquery_Client_raises P (trace w1) PROJECT_ID c = Some e ->
  let w' := snd (bigquery_client P w) in
  fst (bigquery_client P w) = Err e /\
  credentials_cache w' = Some c /\
  bigquery_cache w' = None /\
  next_id w' = next_id w1 /\
  trace (snd (bigquery_client P w')) = EvBigqueryClient PROJECT_ID c :: trace w'.
Proof.
  intros Hb Hl He w'.
  destruct (load_credentials_post P _ _ _ Hl) as (_ & Hbq & _ & Hc).
  assert (Hw' : w' = log (EvBigqueryClient PROJECT_ID c) w1).
  { unfold w'. rewrite (bigquery_client_miss P w Hb), Hl. simpl. rewrite He.
    reflexivity. }
  split.
  { rewrite (bigquery_client_miss P w Hb), Hl. simpl. rewrite He. reflexivity. }
  rewrite Hw'. simpl.
  split; [exact Hc |]. split; [congruence |]. split; [reflexivity |].
  set (w2 := log (EvBigqueryClient PROJECT_ID c) w1).
  assert (Hb2 : bigquery_cache w2 = None) by (simpl; congruence).
  assert (Hc2 : credentials_cache w2 = Some c) by exact Hc.
  rewrite (bigquery_client_miss P w2 Hb2), (load_credentials_hit P w2 c Hc2).
  simpl.
  destruct (bigquery_Client_raises P (EvBigqueryClient PROJECT_ID c :: trace w1)
              PROJECT_ID c); reflexivity.
Qed.

(** X5: answers are not cached, the client is.  Whatever the service answered
    to a first [gemini_function_calling_example], even a failure, the client
    it used is cached, and a second call sends the same request again through
    that client and returns what the service answers then. *)
Theorem gemini_function_calling_example_twice (w w1 : World) (g : GenaiClient) :
  genai_client P w = (Ok g, w1) ->
  let w' := snd (gemini_function_calling_example P w) in
  genai_cache w' = Some g /\
  fst (gemini_function_calling_example P w') =
    models_generate_content P (trace w') g the_request /\
  trace (snd (gemini_function_calling_example P w')) =
    EvGenerateContent g the_request :: EvGenerateContent g the_request :: trace w1.
Proof.
  intros Hg w'.
  destruct (genai_client_post P _ _ _ Hg) as (_ & _ & _ & _ & _ & Hc).
  assert (Hw' : w' = log (EvGenerateContent g the_request) w1).
  { unfold w'. rewrite gemini_function_calling_example_eq, Hg. reflexivity. }
  rewrite Hw'.
  set (w2 := log (EvGenerateContent g the_request) w1).
  assert (Hc2 : genai_cache w2 = Some g) by exact Hc.
  rewrite gemini_function_calling_example_eq, (genai_client_hit P w2 g Hc2).
  simpl. auto.
Qed.

Lemma event_ok_keeps (w1 w2 : World) (ev : event) :
  keeps w1 w2 -> event_ok P w1 ev -> event_ok P w2 ev.
Proof.
  intros (Hc & _ & Hg) H. destruct ev; simpl in *; try exact H.
  - destruct H as [H1 H2]. split; [exact H1 | apply (Hc _ H2)].
  - destruct H as [H1 H2]. split; [exact H1 | apply (Hg _ H2)].
Qed.

(** What one call adds to the trace and to the allocator. *)
Lemma load_credentials_step (w w' : World) (r : result Credentials) :
  load_credentials P w = (r, w') ->
  exists new,
    trace w' = new ++ trace w /\
    Forall (event_ok P w') new /\
    opens new <= 1 /\ requests new = 0 /\
    next_id w' + filled w = next_id w + filled w'.
Proof.
  intro H.
  destruct (credentials_cache w) as [c |] eqn:Hc.
  - rewrite (load_credentials_hit P w c Hc) in H. inversion H; subst.
    exists []. repeat split; auto.
  - exists [EvOpen (ADC_PATH P) "r"].
    rewrite (load_credentials_miss P w Hc) in H.
    invert_run H; unfold filled; simpl; rewrite ?Hc;
      repeat split; auto; try lia; repeat constructor.
Qed.

Lemma genai_client_step (w w' : World) (r : result GenaiClient) :
  genai_client P w = (r, w') ->
  exists new,
    trace w' = new ++ trace w /\
    Forall (event_ok P w') new /\
    opens new = 0 /\ requests new = 0 /\
    next_id w' + filled w = next_id w + filled w'.
Proof.
  intro H.
  destruct (genai_cache w) as [g |] eqn:Hg.
  - rewrite (genai_client_hit P w g Hg) in H. inversion H; subst.
    exists []. repeat split; auto.
  - exists [EvGenaiClient true PROJECT_ID GENAI_LOCATION None None].
    rewrite (genai_client_miss P w Hg) in H.
    invert_run H; unfold filled; simpl; rewrite ?Hg;
      repeat split; auto; try lia; repeat constructor.
Qed.

Lemma bigquery_client_step (w w' : World) (r : result BigqueryClient) :
  bigquery_client P w = (r, w') ->
  exists new,
    trace w' = new ++ trace w /\
    Forall (event_ok P w') new /\
    opens new <= 1 /\ requests new = 0 /\
    next_id w' + filled w = next_id w + filled w'.
Proof.
  intro H.
  destruct (bigquery_cache w) as [b |] eqn:Hb.
  - rewrite (bigquery_client_hit P w b Hb) in H. inversion H; subst.
    exists []. repeat split; auto.
  - rewrite (bigquery_client_miss P w Hb) in H.
    destruct (load_credentials P w) as [[c | e] w1] eqn:Hl.
    + destruct (load_credentials_step _ _ _ Hl) as (new & Ht & Hok & Ho & Hr & Hn).
      destruct (load_credentials_post P _ _ _ Hl) as (_ & Hbq & _ & Hc).
      exists (EvBigqueryClient PROJECT_ID c :: new).
      assert (Hb1 : bigquery_cache w1 = None) by congruence.
      invert_run H; rewrite Ht; unfold filled in *; simpl in *;
        rewrite ?Hb1, ?Hb in *;
        (split; [reflexivity |]);
        (split; [constructor; [simpl; auto | exact Hok] |]);
        unfold opens, requests in *; simpl; repeat split; try lia.
    + inversion H; subst.
      destruct (load_credentials_step _ _ _ Hl) as (new & Ht & Hok & Ho & Hr & Hn).
      exists new. auto.
Qed.

Lemma gemini_function_calling_example_step (w w' : World) (r : result Response) :
  gemini_function_calling_example P w = (r, w') ->
  exists new,
    trace w' = new ++ trace w /\
    Forall (event_ok P w') new /\
    opens new = 0 /\ requests new <= 1 /\
    next_id w' + filled w = next_id w + filled w'.
Proof.
  intro H. rewrite gemini_function_calling_example_eq in H.
  destruct (genai_client P w) as [[g | e] w1] eqn:Hg.
  - destruct (genai_client_step _ _ _ Hg) as (new & Ht & Hok & Ho & Hr & Hn).
    destruct (genai_client_post P _ _ _ Hg) as (_ & _ & _ & _ & _ & Hc).
    exists (EvGenerateContent g the_request :: new).
    inversion H; subst. simpl. rewrite Ht.
    split; [reflexivity |].
    split; [constructor; [simpl; auto | exact Hok] |].
    unfold opens, requests, filled in *. simpl in *. repeat split; lia.
  - inversion H; subst.
    destruct (genai_client_step _ _ _ Hg) as (new & Ht & Hok & Ho & Hr & Hn).
    exists new. repeat split; auto. lia.
Qed.

Lemma run_call_step (c : call) (w : World) :
  exists new,
    trace (snd (run_call P c w)) = new ++ trace w /\
    Forall (event_ok P (snd (run_call P c w))) new /\
    opens new <= (if may_open c then 1 else 0) /\
    requests new <= (if may_request c then 1 else 0) /\
    next_id (snd (run_call P c w)) + filled w =
      next_id w + filled (snd (run_call P c w)).
Proof.
  destruct c; simpl; try rewrite run_call_value; simpl.
  - destruct (load_credentials P w) as [r w'] eqn:H.
    destruct (load_credentials_step _ _ _ H) as (new & H1 & H2 & H3 & H4 & H5).
    exists new. simpl. repeat split; auto. lia.
  - destruct (bigquery_client P w) as [r w'] eqn:H.
    destruct (bigquery_client_step _ _ _ H) as (new & H1 & H2 & H3 & H4 & H5).
    exists new. simpl. repeat split; auto. lia.
  - destruct (genai_client P w) as [r w'] eqn:H.
    destruct (genai_client_step _ _ _ H) as (new & H1 & H2 & H3 & H4 & H5).
    exists new. simpl. repeat split; auto; lia.
  - exists []. repeat split; auto.
  - destruct (gemini_function_calling_example P w) as [r w'] eqn:H.
    destruct (gemini_function_calling_example_step _ _ _ H)
      as (new & H1 & H2 & H3 & H4 & H5).
    exists new. simpl. repeat split; auto. lia.
  - exists []. repeat split; auto.
Qed.

Lemma run_calls_step (cs : list call) :
  forall w : World,
  exists new,
    trace (snd (run_calls P cs w)) = new ++ trace w /\
    Forall (event_ok P (snd (run_calls P cs w))) new /\
    opens new <= count_calls may_open cs /\
    requests new <= count_calls may_request cs /\
    next_id (snd (run_calls P cs w)) + filled w =
      next_id w + filled (snd (run_calls P cs w)).
Proof.
  induction cs as [| c cs IH]; intro w.
  - exists []. repeat split; auto.
  - rewrite run_calls_cons.
    destruct (run_call_step c w) as (n1 & H1 & H2 & H3 & H4 & H5).
    destruct (IH (snd (run_call P c w))) as (n2 & G1 & G2 & G3 & G4 & G5).
    exists (n2 ++ n1).
    split; [rewrite G1, H1, app_assoc; reflexivity |].
    split.
    { apply Forall_app. split; [exact G2 |].
      eapply Forall_impl; [| exact H2].
      intros ev Hev. eapply event_ok_keeps; [apply run_calls_keeps | exact Hev]. }
    rewrite opens_app, requests_app.
    unfold count_calls in *. simpl.
    destruct (may_open c); destruct (may_request c); simpl; repeat split; lia.
Qed.

(** X6: whatever calls are made, in whatever order and with whatever
    outcome, each call the process makes to the outside is one of four:
    opening ADC_PATH for reading, building a BigQuery client for PROJECT_ID
    with the credentials that are cached in the end, building a GenAI client
    for PROJECT_ID and GENAI_LOCATION without credentials or API key, or
    sending the one fixed request through the GenAI client that is cached in
    the end.  No file is opened for writing, no other file is opened. *)
Theorem every_outside_call_is_known (cs : list call) (w : World) :
  exists new,
    trace (snd (run_calls P cs w)) = new ++ trace w /\
    Forall (event_ok P (snd (run_calls P cs w))) new.
Proof.
  destruct (run_calls_step cs w) as (new & H1 & H2 & _).
  exists new. split; assumption.
Qed.

(** X7: a run never opens the file more often than it calls
    [load_credentials] or [bigquery_client], and never sends more requests
    than it calls [gemini_function_calling_example]; no call removes anything
    from the record of what was done. *)
Theorem outside_calls_are_bounded (cs : list call) (w : World) :
  let w' := snd (run_calls P cs w) in
  opens (trace w) <= opens (trace w') <= opens (trace w) + count_calls may_open cs /\
  requests (trace w) <= requests (trace w')
    <= requests (trace w) + count_calls may_request cs.
Proof.
  intro w'. unfold w'.
  destruct (run_calls_step cs w) as (new & H1 & _ & H3 & H4 & _).
  rewrite H1, opens_app, requests_app. lia.
Qed.

(** X8: objects are built once.  Over any run the number of objects allocated
    is the number of cache slots filled meanwhile, so a process allocates at
    most three: one credentials object, one BigQuery client, one GenAI
    client. *)
Theorem at_most_one_object_of_each_kind (cs : list call) (w : World) :
  let w' := snd (run_calls P cs w) in
  next_id w' + filled w = next_id w + filled w' /\
  next_id w' <= next_id w + 3.
Proof.
  intro w'. unfold w'.
  destruct (run_calls_step cs w) as (new & _ & _ & _ & _ & H).
  split; [exact H |].
  assert (filled (snd (run_calls P cs w)) <= 3).
  { unfold filled.
    destruct (credentials_cache _); destruct (bigquery_cache _);
      destruct (genai_cache _); simpl; lia. }
  lia.
Qed.

End Runs.

(** X9: in the schema [function_calling_example] returns, the declared
    properties and the required fields are the same names in the same order,
    and every property names its type (boolean, string, integer or array);
    every array property is an array of strings. *)
Theorem properties_match_required :
  forall w : World,
    exists s props,
      function_calling_example w = (Ok s, w) /\
      py_path ["parameters"; "properties"] s = Some props /\
      py_path ["parameters"; "required"] s = Some (PyList (map PyStr (py_keys props))) /\
      (forall k schema, py_get k props = Some schema -> field_well_typed schema = true).
Proof.
  intro w. eexists; eexists.
  split; [reflexivity |]. split; [reflexivity |]. split; [reflexivity |].
  intros k schema H. simpl in H.
  repeat match type of H with
         | (if ?b then _ else _) = _ =>
             destruct b; [inversion H; subst; reflexivity |]
         end.
  discriminate H.
Qed.

(** X1 on a run: a file that is missing. *)
Lemma load_credentials_failure_leaves_state_witness :
  let w := fresh Missing in
  snd (load_credentials mock w) = log (EvOpen (ADC_PATH mock) "r") w /\
  next_id (snd (load_credentials mock w)) = 0.
Proof.
  intro w.
  destruct (load_credentials_failure_leaves_state mock w
              (snd (load_credentials mock w)) FileAccessError eq_refl)
    as (H1 & _ & _ & _ & H2 & _).
  split; [exact H1 | exact H2].
Defined.

(** X3 on a run: the file is missing, then put in place. *)
Lemma load_credentials_retry_witness :
  let w := fresh Missing in
  let w1 := set_file (ADC_PATH mock) (Readable "authorized user")
              (snd (load_credentials mock w)) in
  fst (load_credentials mock w1) = Ok mock_credentials.
Proof.
  intros w w1.
  exact (proj1 (load_credentials_retry mock w (snd (load_credentials mock w))
                  FileAccessError "authorized user" mock_fields
                  eq_refl eq_refl eq_refl eq_refl)).
Defined.

(** X4 on a run: the file is fine and BigQuery rejects the credentials. *)
Lemma bigquery_client_constructor_failure_witness :
  let w := fresh (Readable "authorized user") in
  let w' := snd (bigquery_client mock_bigquery_down w) in
  fst (bigquery_client mock_bigquery_down w) = Err AuthenticationError /\
  credentials_cache w' = Some mock_credentials /\
  opens (trace (snd (bigquery_client mock_bigquery_down w'))) = 1.
Proof.
  intros w w'.
  destruct (bigquery_client_constructor_failure mock_bigquery_down w
              (snd (load_credentials mock_bigquery_down w)) mock_credentials
              AuthenticationError eq_refl eq_refl eq_refl)
    as (H1 & H2 & _ & _ & H3).
  split; [exact H1 |]. split; [exact H2 |].
  fold w' in H3. rewrite H3. reflexivity.
Defined.

(** X5 on a run: two requests in a fresh process. *)
Lemma gemini_function_calling_example_twice_witness :
  let w := fresh Missing in
  let w' := snd (gemini_function_calling_example mock w) in
  genai_cache w' = Some mock_genai_client /\
  requests (trace (snd (gemini_function_calling_example mock w'))) = 2.
Proof.
  intros w w'.
  destruct (gemini_function_calling_example_twice mock w
              (snd (genai_client mock w)) mock_genai_client eq_refl)
    as (H1 & _ & H2).
  split; [exact H1 |]. fold w' in H2. rewrite H2. reflexivity.
Defined.
